(** * PatientPage: a shallow embedding of [src/pages/PatientPage.tsx]

    The page is a React function component.  It is embedded as
    - records for the FHIR resources it reads and writes,
    - a small free monad [Prog] for the calls its callbacks make
      (GraphQL read, resource creation, state setters, navigation),
    - a virtual-DOM tree [VNode] for what the component returns,
    - a transition function [step] over the browser events that reach it
      (route parameter change, promise settlement, tab selection, click).  *)

From Stdlib Require Import String Ascii DecimalString.
From Stdlib Require DecimalNat.
From stdpp Require Import base option list strings.

(* ===================================================================== *)
(** ** FHIR data model (the fields the page queries, renders or writes)   *)
(* ===================================================================== *)

Record Meta := { lastUpdated : option string }.

Record HumanName := {
  prefix : option (list string);
  given  : option (list string);
  family : option string;
  suffix : option (list string);
}.

Record ContactPoint := { system : option string; value : option string }.

Record Address := {
  line  : option (list string);
  city  : option string;
  state : option string;
}.

Record Attachment := {
  contentType : option string;
  url         : option string;
  title       : option string;
}.

Record Coding := { code : option string }.

Record CodeableConcept := {
  text   : option string;
  coding : option (list Coding);
}.

Record Reference := {
  reference : option string;
  display   : option string;
}.

Module Patient.
Record t := {
  resourceType : string;
  id        : option string;
  meta      : option Meta;
  birthDate : option string;
  name      : option (list HumanName);
  telecom   : option (list ContactPoint);
  address   : option (list Address);
  photo     : option (list Attachment);
}.
End Patient.

Module ServiceRequest.
Record t := {
  resourceType : string;
  id       : option string;
  meta     : option Meta;
  category : option (list CodeableConcept);
  code     : option CodeableConcept;
}.
End ServiceRequest.

Module DiagnosticReport.
Record t := {
  resourceType : string;
  id      : option string;
  meta    : option Meta;
  subject : option Reference;
  status  : option string;
  code    : option CodeableConcept;
}.
End DiagnosticReport.

(** [interface PatientGraphQLResponse { data: { patient; orders; reports } }] *)
Record PatientGraphQLData := {
  patient : Patient.t;
  orders  : list ServiceRequest.t;
  reports : list DiagnosticReport.t;
}.

Record PatientGraphQLResponse := { data : PatientGraphQLData }.

(* ===================================================================== *)
(** ** JavaScript values and conversions used by the page                 *)
(* ===================================================================== *)

(** The values that flow through the click handler. *)
Inductive JSValue :=
| JUndefined
| JString (s : string)
| JFunction (fname : string)              (* a function object *)
| JReport (r : DiagnosticReport.t).       (* a DiagnosticReport object *)

(** [optional ?? undefined] as a JavaScript value. *)
Definition js_of_option (o : option string) : JSValue :=
  match o with Some s => JString s | None => JUndefined end.

(** Property read [v.id].  [None] is the TypeError raised on [undefined].
    A function object owns [length], [name] and [prototype] only, and a
    string has no [id] either, so both read as [undefined]. *)
Definition get_id (v : JSValue) : option JSValue :=
  match v with
  | JUndefined => None
  | JString _ => Some JUndefined
  | JFunction _ => Some JUndefined
  | JReport r => Some (js_of_option (DiagnosticReport.id r))
  end.

(** Decimal rendering of a non-negative integer ([String(n)]). *)
Definition number_to_string (n : nat) : string :=
  NilZero.string_of_uint (Nat.to_uint n).

(** String conversion inside a template literal, for the values above
    that the page interpolates. *)
Definition to_string (v : JSValue) : string :=
  match v with
  | JUndefined => "undefined"
  | JString s => s
  | JFunction f => "function " +:+ f
  | JReport _ => "[object Object]"
  end.

(** [`${x}`] for an optional string [x]. *)
Definition template (o : option string) : string := to_string (js_of_option o).

(** The double-quote character of the query text. *)
Definition dq : string := String "034"%char EmptyString.

(* ===================================================================== *)
(** ** Callbacks as programs                                              *)
(* ===================================================================== *)

(** The calls a callback of the page can make.  A constructor with a
    continuation taking the platform's answer is a suspension point: the
    rest runs when (and only if) the promise is fulfilled. *)
Inductive Prog (A : Type) : Type :=
| Ret (a : A)
| Throw                                              (* uncaught exception *)
| Graphql (query : string) (k : PatientGraphQLResponse → Prog A)
| CreateResource (resource : DiagnosticReport.t) (k : DiagnosticReport.t → Prog A)
| Await (v : JSValue) (k : JSValue → Prog A)         (* await of a non-promise *)
| SetResponse (r : PatientGraphQLResponse) (k : Prog A)
| SetTab (v : option string) (k : Prog A)
| Navigate (to : string) (k : Prog A)
| ConsoleLog (args : list JSValue) (k : Prog A).

Arguments Ret {A} a.
Arguments Throw {A}.
Arguments Graphql {A} query k.
Arguments CreateResource {A} resource k.
Arguments Await {A} v k.
Arguments SetResponse {A} r k.
Arguments SetTab {A} v k.
Arguments Navigate {A} to k.
Arguments ConsoleLog {A} args k.

Fixpoint prog_bind {A B} (f : A → Prog B) (p : Prog A) : Prog B :=
  match p with
  | Ret a => f a
  | Throw => Throw
  | Graphql q k => Graphql q (λ r, prog_bind f (k r))
  | CreateResource d k => CreateResource d (λ r, prog_bind f (k r))
  | Await v k => Await v (λ x, prog_bind f (k x))
  | SetResponse r k => SetResponse r (prog_bind f k)
  | SetTab v k => SetTab v (prog_bind f k)
  | Navigate to k => Navigate to (prog_bind f k)
  | ConsoleLog args k => ConsoleLog args (prog_bind f k)
  end.

#[global] Instance prog_ret : MRet Prog := λ A, @Ret A.
#[global] Instance prog_mbind : MBind Prog := λ A B, @prog_bind A B.

(** The primitive operations, named as in the source. *)
Definition graphql (query : string) : Prog PatientGraphQLResponse := Graphql query Ret.
Definition createResource (d : DiagnosticReport.t) : Prog DiagnosticReport.t :=
  CreateResource d Ret.
Definition await (v : JSValue) : Prog JSValue := Await v Ret.
Definition setResponse (r : PatientGraphQLResponse) : Prog unit := SetResponse r (Ret tt).
Definition setTab (v : option string) : Prog unit := SetTab v (Ret tt).
Definition navigate (to : string) : Prog unit := Navigate to (Ret tt).
Definition console_log (args : list JSValue) : Prog unit := ConsoleLog args (Ret tt).

(** [v.id], raising on [undefined]. *)
Definition read_id (v : JSValue) : Prog JSValue :=
  match get_id v with Some x => Ret x | None => Throw end.

(** A call whose resulting promise nobody reads. *)
Definition void {A} (p : Prog A) : Prog unit := p ≫= λ _, Ret tt.

(* ===================================================================== *)
(** ** The component's surroundings                                       *)
(* ===================================================================== *)

(** Functions of [@medplum/core] the page calls; their code is the SDK's. *)
Class MedplumCore := {
  createReference    : Patient.t → Reference;
  getReferenceString : Patient.t → string;
}.

(** The JavaScript [Date] object as far as [formatDate] uses it:
    [new Date(s)] and [d.toLocaleDateString()] (locale and time zone are
    the host's). *)
Class JSDate := {
  Date : Type;
  Date_new : string → Date;
  toLocaleDateString : Date → string;
}.

(** A promise handed out by the platform client, with the reaction the
    page attached to its fulfilment.  No callback of the page attaches a
    rejection reaction. *)
Inductive Promise :=
| PendingQuery (onFulfilled : PatientGraphQLResponse → Prog unit)
| PendingCreate (onFulfilled : DiagnosticReport.t → Prog unit)
| Settled.

(** Outbound calls, as the platform client, the router and the console
    see them. *)
Inductive Call :=
| GraphqlCall (query : string)
| CreateResourceCall (resource : DiagnosticReport.t)
| NavigateCall (to : string)
| ConsoleLogCall (args : list JSValue).

(** Hook state of one mounted [PatientPage] and what it has done so far. *)
Record World := {
  route_id    : option string;            (* useParams().id *)
  tab         : option string;            (* useState('overview') *)
  response    : option PatientGraphQLResponse;   (* useState() *)
  effect_deps : option (option string);   (* [id] of the last effect run *)
  promises    : list Promise;             (* promise table, by index *)
  calls       : list Call;                (* outbound calls, oldest first *)
  unhandled   : nat;                      (* unhandled promise rejections *)
}.

Definition with_route_id (i : option string) (w : World) : World :=
  {| route_id := i; tab := tab w; response := response w;
     effect_deps := effect_deps w; promises := promises w;
     calls := calls w; unhandled := unhandled w |}.

Definition with_tab (v : option string) (w : World) : World :=
  {| route_id := route_id w; tab := v; response := response w;
     effect_deps := effect_deps w; promises := promises w;
     calls := calls w; unhandled := unhandled w |}.

Definition with_response (r : PatientGraphQLResponse) (w : World) : World :=
  {| route_id := route_id w; tab := tab w; response := Some r;
     effect_deps := effect_deps w; promises := promises w;
     calls := calls w; unhandled := unhandled w |}.

Definition with_effect_deps (d : option string) (w : World) : World :=
  {| route_id := route_id w; tab := tab w; response := response w;
     effect_deps := Some d; promises := promises w;
     calls := calls w; unhandled := unhandled w |}.

Definition with_promises (ps : list Promise) (w : World) : World :=
  {| route_id := route_id w; tab := tab w; response := response w;
     effect_deps := effect_deps w; promises := ps;
     calls := calls w; unhandled := unhandled w |}.

Definition log_call (c : Call) (w : World) : World :=
  {| route_id := route_id w; tab := tab w; response := response w;
     effect_deps := effect_deps w; promises := promises w;
     calls := calls w ++ [c]; unhandled := unhandled w |}.

Definition unhandled_rejection (w : World) : World :=
  {| route_id := route_id w; tab := tab w; response := response w;
     effect_deps := effect_deps w; promises := promises w;
     calls := calls w; unhandled := S (unhandled w) |}.

(** Issue a call that returns a promise: log it and allocate the promise. *)
Definition suspend (c : Call) (p : Promise) (w : World) : World :=
  with_promises (promises w ++ [p]) (log_call c w).

(** Run a callback until it returns or suspends on a promise. *)
Fixpoint run (p : Prog unit) (w : World) : World :=
  match p with
  | Ret _ => w
  | Throw => unhandled_rejection w
  | Graphql q k => suspend (GraphqlCall q) (PendingQuery k) w
  | CreateResource d k => suspend (CreateResourceCall d) (PendingCreate k) w
  | Await v k => run (k v) w
  | SetResponse r k => run k (with_response r w)
  | SetTab v k => run k (with_tab v w)
  | Navigate to k => run k (log_call (NavigateCall to) w)
  | ConsoleLog args k => run k (log_call (ConsoleLogCall args) w)
  end.

(* ===================================================================== *)
(** ** What the component returns: React elements                         *)
(* ===================================================================== *)

(** Components of [@mantine/core] and [@medplum/react] with the props the
    page passes them.  They are rendered by their libraries. *)
Inductive Widget :=
| Loader
| PatientHeader (patient : Patient.t)
| Tabs (value : option string) (onTabChange : option string → Prog unit)
| TabsList
| TabsTab (value : string)
| TabsPanel (value : string)
| Document
| ResourceAvatar (value : Patient.t)
| ResourceName (value : Patient.t)
| AddressDisplay (value : Address)
| ContactPointDisplay (value : ContactPoint)
| PatientTimeline (patient : Patient.t)
| ResourceHistoryTable (resourceType : string) (id : option string).

Inductive Attr :=
| Key (k : string)
| StrAttr (name value : string)          (* className, type, value, href *)
| OnClick (handler : Prog unit).

#[local] Set Warnings "-register-all".
Inductive VNode :=
| Text (s : string)                      (* a string or number child *)
| Nothing                                (* an undefined child *)
| Fragment (children : list VNode)       (* <>...</> or an array child *)
| Host (tag : string) (attrs : list Attr) (children : list VNode)
| Component (w : Widget) (key : option string) (children : list VNode).

(** [{s}] for an optional string. *)
Definition child_string (o : option string) : VNode :=
  match o with Some s => Text s | None => Nothing end.

(** [{ss}] for an optional array of strings. *)
Definition child_strings (o : option (list string)) : VNode :=
  match o with Some ss => Fragment (Text <$> ss) | None => Nothing end.

(** [{xs?.map(f)}] for an optional array. *)
Definition child_map {A} (f : nat → A → VNode) (o : option (list A)) : VNode :=
  match o with Some xs => Fragment (imap f xs) | None => Nothing end.

(** [xs[i]] on an array: [undefined] out of range. *)
Definition at_index {A} (i : nat) (xs : list A) : option A := xs !! i.

(** Optional chaining [o?.f]: [undefined] when [o] is. *)
Definition opt_chain {A B} (o : option A) (f : A → option B) : option B :=
  match o with Some a => f a | None => None end.

Infix "?." := opt_chain (at level 50, left associativity).

(** [{n}] for a number. *)
Definition child_number (n : nat) : VNode := Text (number_to_string n).

(** Subtree queries, in document order. *)
Fixpoint collect {B} (g : VNode → option B) (n : VNode) : list B :=
  option_list (g n) ++
  match n with
  | Text _ | Nothing => []
  | Fragment cs | Host _ _ cs | Component _ _ cs => flat_map (collect g) cs
  end.

(** The DOM's [textContent] of what this component itself renders. *)
Fixpoint textContent (n : VNode) : string :=
  match n with
  | Text s => s
  | Nothing => ""
  | Fragment cs | Host _ _ cs | Component _ _ cs =>
      foldr (λ c acc, textContent c +:+ acc) "" cs
  end.

Definition attr_value (name : string) (a : Attr) : option string :=
  match a with
  | StrAttr n v => if String.eqb n name then Some v else None
  | _ => None
  end.

(** The first value of attribute [name] on a host element. *)
Definition get_attr (name : string) (n : VNode) : option string :=
  match n with
  | Host _ attrs _ => head (omap (attr_value name) attrs)
  | _ => None
  end.

Definition is_tag (t : string) (n : VNode) : bool :=
  match n with Host t' _ _ => String.eqb t t' | _ => false end.

(** The [onTabChange] prop of a [Tabs] element. *)
Definition on_tab_change (n : VNode) : option (option string → Prog unit) :=
  match n with Component (Tabs _ h) _ _ => Some h | _ => None end.

(** The [onClick] prop of a host element. *)
Definition on_click (n : VNode) : option (Prog unit) :=
  match n with
  | Host _ attrs _ =>
      head (omap (λ a, match a with OnClick h => Some h | _ => None end) attrs)
  | _ => None
  end.

(** A [Tabs.Panel] with the given value. *)
Definition tabs_panel (v : string) (n : VNode) : option VNode :=
  match n with
  | Component (TabsPanel v') _ _ => if String.eqb v v' then Some n else None
  | _ => None
  end.

(* ===================================================================== *)
(** ** The component                                                      *)
(* ===================================================================== *)

Section PatientPage.
Context `{MedplumCore} `{JSDate}.

(** [function formatDate(date: string | undefined): string] *)
Definition formatDate (date : option string) : string :=
  match date with
  | None => ""                       (* !undefined *)
  | Some "" => ""                    (* !'' *)
  | Some s =>
      let d := Date_new s in
      toLocaleDateString d
  end.

(** The template literal of the effect, [id] being [useParams().id]. *)
Definition query (id : option string) : string :=
"{
      patient: Patient(id: " +:+ dq +:+ template id +:+ dq +:+ ") {
        resourceType,
        id,
        meta { lastUpdated },
        birthDate,
        name {
          given,
          family
        },
        telecom {
          system,
          value
        },
        address {
          line,
          city,
          state
        }
        photo {
          contentType,
          url,
          title
        }
      },
      orders: ServiceRequestList(subject: " +:+ dq +:+ "Patient/" +:+ template id +:+ dq +:+ ") {
        resourceType,
        id,
        meta { lastUpdated },
        category {
          text
        },
        code {
          text
        }
      },
      reports: DiagnosticReportList(subject: " +:+ dq +:+ "Patient/" +:+ template id +:+ dq +:+ ") {
        resourceType,
        id,
        meta { lastUpdated },
        code {
          text
        }
      }
    }".

(** The body of [useEffect(..., [medplum, id])]:
    [medplum.graphql(query).then(setResponse)]. *)
Definition effect (id : option string) : Prog unit :=
  graphql (query id) ≫= setResponse.

(** [const handleAddDiagnosticReport = async () => { ... }], a closure
    over the [patient] of the render that defined it. *)
Definition handleAddDiagnosticReport (patient : Patient.t) : Prog DiagnosticReport.t :=
  let reportData : DiagnosticReport.t := {|
    DiagnosticReport.resourceType := "DiagnosticReport";
    DiagnosticReport.subject := Some (createReference patient);
    DiagnosticReport.status := Some "final";
    DiagnosticReport.code :=
      Some {| text := None; coding := Some [ {| code := Some "Progress note" |} ] |};
    (* fields the literal leaves out *)
    DiagnosticReport.id := None;
    DiagnosticReport.meta := None;
  |} in
  report ← createResource reportData;
  mret report.

(** The button's [onClick].  The operand of [await] is the identifier
    [handleAddDiagnosticReport], a function object, not a call. *)
Definition onClick : Prog unit :=
  report ← await (JFunction "handleAddDiagnosticReport");
  id1 ← read_id report;
  console_log [JString "Created Report"; id1];;
  id2 ← read_id report;
  navigate ("/DiagnosticReport/" +:+ to_string id2).

(** [export function PatientPage(): JSX.Element], as a function of the
    two state values it reads. *)
Definition PatientPage (tab : option string)
    (response : option PatientGraphQLResponse) : VNode :=
  match response with
  | None => Component Loader None []
  | Some response =>
    let patient := patient (data response) in
    let orders := orders (data response) in
    let reports := reports (data response) in
    Fragment [
      Component (PatientHeader patient) (Some (getReferenceString patient)) [];
      Component (Tabs tab setTab) None [
        Component TabsList None [
          Component (TabsTab "overview") None [Text "Overview"];
          Component (TabsTab "timeline") None [Text "Timeline"];
          Component (TabsTab "history") None [Text "History"] ];
        Component Document None [
          Component (TabsPanel "overview") None [
            Host "div" [StrAttr "className" "patient-sidebar"] [
              Host "div" [StrAttr "className" "patient-title"] [
                Component (ResourceAvatar patient) None [];
                Component (ResourceName patient) None [] ];
              Host "h3" [] [Text "Birth Date"];
              Host "div" [] [child_string (Patient.birthDate patient)];
              Host "h3" [] [Text "Address"];
              child_map (λ i a,
                  Host "div" [Key ("address-" +:+ number_to_string i)] [
                    Component (AddressDisplay a) None [] ])
                (Patient.address patient);
              Host "h3" [] [Text "Contact"];
              child_map (λ i t,
                  Host "div" [Key ("contact-" +:+ number_to_string i)] [
                    Component (ContactPointDisplay t) None [] ])
                (Patient.telecom patient) ];
            Host "div" [StrAttr "className" "patient-demographics"] [
              Host "h3" [] [Text "Demographics"];
              Host "div" [] [
                Text "Created Date: ";
                Text (formatDate (Patient.meta patient ?. lastUpdated)) ];
              Host "table" [] [ Host "tbody" [] [ Host "tr" [] [
                Host "td" [] [
                  Text "Prefix: ";
                  child_strings (Patient.name patient ?. at_index 0 ?. prefix) ];
                Host "td" [] [
                  Text "First: ";
                  child_string (Patient.name patient ?. at_index 0 ?. given ?. at_index 0) ];
                Host "td" [] [
                  Text "Middle: ";
                  child_string (Patient.name patient ?. at_index 0 ?. given ?. at_index 1) ];
                Host "td" [] [
                  Text "Last: ";
                  child_string (Patient.name patient ?. at_index 0 ?. family) ];
                Host "td" [] [
                  Text "Suffix: ";
                  child_strings (Patient.name patient ?. at_index 0 ?. suffix) ] ] ] ];
              Host "h3" [] [Text "Orders ("; child_number (length orders); Text ")"];
              Host "ul" [] [
                child_map (λ i o,
                    Host "li" [Key ("order-" +:+ number_to_string i)] [
                      Host "a" [StrAttr "href"
                                  ("/ServiceRequest/" +:+ template (ServiceRequest.id o))] [
                        child_string (ServiceRequest.code o ?. text) ];
                      Text " (";
                      Text (formatDate (ServiceRequest.meta o ?. lastUpdated));
                      Text ")" ])
                  (Some orders) ];
              Host "h3" [] [Text "Reports ("; child_number (length reports); Text ")"];
              Host "ul" [] [
                child_map (λ i o,
                    Host "li" [Key ("report-" +:+ number_to_string i)] [
                      Host "a" [StrAttr "href"
                                  ("/DiagnosticReport/" +:+ template (DiagnosticReport.id o))] [
                        child_string (DiagnosticReport.code o ?. text);
                        Text " (";
                        Text (formatDate (DiagnosticReport.meta o ?. lastUpdated));
                        Text ")" ] ])
                  (Some reports) ];
              Host "input" [StrAttr "type" "button";
                            StrAttr "value" "Add Diagnostic Report";
                            OnClick onClick] [] ] ];
          Component (TabsPanel "timeline") None [
            Component (PatientTimeline patient) None [] ];
          Component (TabsPanel "history") None [
            Component (ResourceHistoryTable "Patient" (Patient.id patient)) None [] ] ] ] ]
  end.

(** What is on screen in a given state. *)
Definition view (w : World) : VNode := PatientPage (tab w) (response w).

(* --------------------------------------------------------------------- *)
(** *** Events and transitions                                            *)
(* --------------------------------------------------------------------- *)

Inductive Event :=
| RouteChange (id : option string)       (* the router supplies a new [:id] *)
| QueryFulfilled (p : nat) (r : PatientGraphQLResponse)
| CreateFulfilled (p : nat) (d : DiagnosticReport.t)
| Rejected (p : nat)                     (* promise [p] is rejected *)
| TabSelected (v : option string)        (* the user picks a tab *)
| AddReportClicked.                      (* the user clicks the button *)

Definition settle (p : nat) (w : World) : World :=
  with_promises (<[p := Settled]> (promises w)) w.

(** Deliver an event to the callback registered for it.  A settlement of
    a promise that is not pending, and a user event whose element is not
    on screen, deliver nothing.  A rejection finds no reaction: every
    promise of the page was chained with a fulfilment reaction only. *)
Definition dispatch (e : Event) (w : World) : World :=
  match e with
  | RouteChange i => with_route_id i w
  | QueryFulfilled p r =>
      match promises w !! p with
      | Some (PendingQuery k) => run (k r) (settle p w)
      | _ => w
      end
  | CreateFulfilled p d =>
      match promises w !! p with
      | Some (PendingCreate k) => run (k d) (settle p w)
      | _ => w
      end
  | Rejected p =>
      match promises w !! p with
      | Some (PendingQuery _) | Some (PendingCreate _) =>
          unhandled_rejection (settle p w)
      | _ => w
      end
  | TabSelected v =>
      match collect on_tab_change (view w) with
      | h :: _ => run (h v) w
      | [] => w
      end
  | AddReportClicked =>
      match collect on_click (view w) with
      | h :: _ => run h w
      | [] => w
      end
  end.

(** After the render that follows an event, React runs the effect when
    its dependency [id] differs from the one of its last run ([medplum] is
    the same client object throughout). *)
Definition commit (w : World) : World :=
  if decide (effect_deps w = Some (route_id w)) then w
  else run (effect (route_id w)) (with_effect_deps (route_id w) w).

Definition step (w : World) (e : Event) : World := commit (dispatch e w).

Definition steps (w : World) (es : list Event) : World := foldl step w es.

(** First render of the page at route parameter [id]. *)
Definition mount (id : option string) : World :=
  commit {| route_id := id; tab := Some "overview"; response := None;
            effect_deps := None; promises := []; calls := [];
            unhandled := 0 |}.

(** Calling a callback and dropping the promise it returns. *)
Definition invoke {A} (p : Prog A) (w : World) : World := run (void p) w.

End PatientPage.

(* ===================================================================== *)
(** ** Projections of the call log                                        *)
(* ===================================================================== *)

Definition graphql_query (c : Call) : option string :=
  match c with GraphqlCall q => Some q | _ => None end.

Definition created_resource (c : Call) : option DiagnosticReport.t :=
  match c with CreateResourceCall d => Some d | _ => None end.

Definition navigated_to (c : Call) : option string :=
  match c with NavigateCall to => Some to | _ => None end.

Definition is_fulfilment (e : Event) : bool :=
  match e with QueryFulfilled _ _ | CreateFulfilled _ _ => true | _ => false end.

Definition is_tab_selection (e : Event) : bool :=
  match e with TabSelected _ => true | _ => false end.

Definition pending_query (w : World) (p : nat) : Prop :=
  ∃ k, promises w !! p = Some (PendingQuery k).

(* ===================================================================== *)
(** ** A concrete host for the worked examples                            *)
(* ===================================================================== *)

(** [resourceType/id], the usual FHIR reference string. *)
Definition example_core : MedplumCore := {|
  createReference p :=
    {| reference := Some (Patient.resourceType p +:+ "/" +:+ template (Patient.id p));
       display := None |};
  getReferenceString p := Patient.resourceType p +:+ "/" +:+ template (Patient.id p);
|}.

(** Dates kept as their ISO text; the locale string is the date part. *)
Definition example_date : JSDate := {|
  Date := string;
  Date_new s := s;
  toLocaleDateString d := substring 0 10 d;
|}.

(** Sample records: Jane A. Doe with two addresses, one contact point,
    three orders and no report; and a second patient with one order and
    one report, none of them carrying [lastUpdated]. *)
Definition jane : Patient.t := {|
  Patient.resourceType := "Patient";
  Patient.id := Some "123";
  Patient.meta := Some {| lastUpdated := Some "2023-04-05T10:00:00Z" |};
  Patient.birthDate := Some "1980-02-01";
  Patient.name := Some [ {| prefix := None; given := Some ["Jane"; "A."];
                            family := Some "Doe"; suffix := None |} ];
  Patient.telecom := Some [ {| system := Some "phone"; value := Some "555-0100" |} ];
  Patient.address :=
    Some [ {| line := Some ["1 Main St"]; city := Some "Springfield"; state := Some "IL" |};
           {| line := Some ["2 Oak Ave"]; city := Some "Portland"; state := Some "OR" |} ];
  Patient.photo := None;
|}.

Definition sample_order (id text : string) : ServiceRequest.t := {|
  ServiceRequest.resourceType := "ServiceRequest";
  ServiceRequest.id := Some id;
  ServiceRequest.meta := Some {| lastUpdated := Some "2023-04-06T08:30:00Z" |};
  ServiceRequest.category := None;
  ServiceRequest.code := Some {| text := Some text; coding := None |};
|}.

Definition jane_response : PatientGraphQLResponse := {|
  data := {| patient := jane;
             orders := [ sample_order "a1" "CBC"; sample_order "a2" "Lipid panel";
                         sample_order "a3" "X-ray" ];
             reports := [] |} |}.

Definition bare_patient : Patient.t := {|
  Patient.resourceType := "Patient";
  Patient.id := Some "456";
  Patient.meta := None;
  Patient.birthDate := None;
  Patient.name := None;
  Patient.telecom := None;
  Patient.address := None;
  Patient.photo := None;
|}.

Definition bare_response : PatientGraphQLResponse := {|
  data := {| patient := bare_patient;
             orders := [ {| ServiceRequest.resourceType := "ServiceRequest";
                            ServiceRequest.id := Some "b1";
                            ServiceRequest.meta := None;
                            ServiceRequest.category := None;
                            ServiceRequest.code :=
                              Some {| text := Some "MRI"; coding := None |} |} ];
             reports := [ {| DiagnosticReport.resourceType := "DiagnosticReport";
                             DiagnosticReport.id := Some "c1";
                             DiagnosticReport.meta := Some {| lastUpdated := None |};
                             DiagnosticReport.subject := None;
                             DiagnosticReport.status := Some "final";
                             DiagnosticReport.code :=
                               Some {| text := Some "Note"; coding := None |} |} ] |} |}.

(* ===================================================================== *)
(** ** Outline of the rendered page, for statements about what is shown   *)
(* ===================================================================== *)

Definition address_display (n : VNode) : option Address :=
  match n with Component (AddressDisplay a) _ _ => Some a | _ => None end.

Definition contact_display (n : VNode) : option ContactPoint :=
  match n with Component (ContactPointDisplay t) _ _ => Some t | _ => None end.

(** Text of a table cell. *)
Definition td_text (n : VNode) : option string :=
  if is_tag "td" n then Some (textContent n) else None.

(** Text of a [<div>] written without attributes. *)
Definition plain_div_text (n : VNode) : option string :=
  match n with
  | Host tag [] _ => if String.eqb tag "div" then Some (textContent n) else None
  | _ => None
  end.

(** The [href] of an anchor. *)
Definition anchor_href (n : VNode) : option string :=
  if is_tag "a" n then get_attr "href" n else None.

(** Headings and linked list items, the skeleton of the overview. *)
Inductive OutlineItem :=
| Heading (text : string)
| LinkedItem (href : string) (text : string).

Definition outline (n : VNode) : option OutlineItem :=
  if is_tag "h3" n then Some (Heading (textContent n))
  else if is_tag "li" n then
    match collect anchor_href n with
    | href :: _ => Some (LinkedItem href (textContent n))
    | [] => None
    end
  else None.

(** Text of a list item. *)
Definition li_text (n : VNode) : option string :=
  if is_tag "li" n then Some (textContent n) else None.

(** The text an order, and a report, is listed with. *)
Definition order_text `{JSDate} (o : ServiceRequest.t) : string :=
  default "" (ServiceRequest.code o ?. text) +:+ " (" +:+
  formatDate (ServiceRequest.meta o ?. lastUpdated) +:+ ")".

Definition report_text `{JSDate} (o : DiagnosticReport.t) : string :=
  default "" (DiagnosticReport.code o ?. text) +:+ " (" +:+
  formatDate (DiagnosticReport.meta o ?. lastUpdated) +:+ ")".

(** Events that neither deliver a result nor change the identifier [i]. *)
Definition quiet (i : option string) (e : Event) : bool :=
  match e with
  | RouteChange j => bool_decide (j = i)
  | QueryFulfilled _ _ | CreateFulfilled _ _ => false
  | Rejected _ | TabSelected _ | AddReportClicked => true
  end.

(** Every pending promise of the table is a read query whose reaction is
    [setResponse]. *)
Definition only_queries (w : World) : Prop :=
  Forall (λ pr, pr = Settled ∨ pr = PendingQuery setResponse) (promises w).

(** The record [handleAddDiagnosticReport] hands to [createResource]. *)
Definition submitted_report `{MedplumCore} (patient : Patient.t) : DiagnosticReport.t := {|
  DiagnosticReport.resourceType := "DiagnosticReport";
  DiagnosticReport.id := None;
  DiagnosticReport.meta := None;
  DiagnosticReport.subject := Some (createReference patient);
  DiagnosticReport.status := Some "final";
  DiagnosticReport.code :=
    Some {| text := None; coding := Some [ {| code := Some "Progress note" |} ] |};
|}.

(** The page shows the loader for identifier [i], having asked once. *)
Definition loading_at (i : option string) (w : World) : Prop :=
  response w = None ∧ route_id w = i ∧ effect_deps w = Some i
  ∧ calls w = [GraphqlCall (query i)].

(** A collector that never selects a leaf or an array. *)
Definition skips_leaves {B} (g : VNode → option B) : Prop :=
  g Nothing = None ∧ (∀ s, g (Text s) = None) ∧ (∀ cs, g (Fragment cs) = None).

(* ===================================================================== *)
(** ** Further vocabulary: calls per event, keys, tabs, link texts        *)
(* ===================================================================== *)

(** The identifiers the router supplies that differ from the one before:
    the identifiers the effect runs for after the first render. *)
Fixpoint identifier_changes (cur : option string) (es : list Event)
    : list (option string) :=
  match es with
  | [] => []
  | RouteChange j :: es' =>
      if decide (j = cur) then identifier_changes cur es'
      else j :: identifier_changes j es'
  | _ :: es' => identifier_changes cur es'
  end.

(** The outbound calls an event causes in state [w]: a read query on a
    change of identifier, a console line and a navigation on a click while
    a result is shown, nothing otherwise. *)
Definition new_calls (w : World) (e : Event) : list Call :=
  match e with
  | RouteChange j =>
      if decide (j = route_id w) then [] else [GraphqlCall (query j)]
  | AddReportClicked =>
      match response w with
      | Some _ => [ ConsoleLogCall [JString "Created Report"; JUndefined];
                    NavigateCall "/DiagnosticReport/undefined" ]
      | None => []
      end
  | _ => []
  end.

(** The effect has run for the current identifier and the promise table
    holds read queries only. *)
Definition ready (w : World) : Prop :=
  only_queries w ∧ effect_deps w = Some (route_id w).

(** No create call in a call log, and no navigation but to the fixed path. *)
Definition never_created (cs : list Call) : Prop :=
  omap created_resource cs = []
  ∧ Forall (λ to, to = "/DiagnosticReport/undefined") (omap navigated_to cs).

(** The React [key] of a host element. *)
Definition key_of (n : VNode) : option string :=
  match n with
  | Host _ attrs _ =>
      head (omap (λ a, match a with Key k => Some k | _ => None end) attrs)
  | _ => None
  end.

(** The keys [pfx0], [pfx1], ... of a mapped array of [n] elements. *)
Definition keyed (pfx : string) (n : nat) : list string :=
  (λ i, pfx +:+ number_to_string i) <$> seq 0 n.

Definition tab_value (n : VNode) : option string :=
  match n with Component (TabsTab v) _ _ => Some v | _ => None end.

Definition panel_value (n : VNode) : option string :=
  match n with Component (TabsPanel v) _ _ => Some v | _ => None end.

Definition tabs_value (n : VNode) : option (option string) :=
  match n with Component (Tabs v _) _ _ => Some v | _ => None end.

(** Text of an anchor. *)
Definition anchor_text (n : VNode) : option string :=
  if is_tag "a" n then Some (textContent n) else None.

(* ===================================================================== *)
(** ** Lemmas on the tree queries                                         *)
(* ===================================================================== *)

Lemma flat_map_imap_nil {A B C} (F : B → list C) (f : nat → A → B) (l : list A) :
  (∀ i x, F (f i x) = []) → flat_map F (imap f l) = [].
Proof.
  revert f. induction l as [|x l IH]; intros f Hf; simpl; [done|].
  rewrite Hf. simpl. apply IH. intros i y. apply Hf.
Qed.

Lemma flat_map_imap_singleton {A B C} (F : B → list C) (f : nat → A → B)
    (g : A → C) (l : list A) :
  (∀ i x, F (f i x) = [g x]) → flat_map F (imap f l) = g <$> l.
Proof.
  revert f. induction l as [|x l IH]; intros f Hf; simpl; [done|].
  rewrite Hf. simpl. f_equal. apply IH. intros i y. apply Hf.
Qed.

Lemma flat_map_fmap_nil {A B C} (F : B → list C) (f : A → B) (l : list A) :
  (∀ x, F (f x) = []) → flat_map F (f <$> l) = [].
Proof.
  intros Hf. induction l as [|x l IH]; simpl; [done|]. by rewrite Hf.
Qed.

Lemma collect_child_string {B} (g : VNode → option B) o :
  skips_leaves g → collect g (child_string o) = [].
Proof. intros (Hn & Ht & _). destruct o; simpl; by rewrite ?Hn, ?Ht. Qed.

Lemma collect_child_strings {B} (g : VNode → option B) o :
  skips_leaves g → collect g (child_strings o) = [].
Proof.
  intros (Hn & Ht & Hf). destruct o as [ss|]; simpl; [|by rewrite Hn].
  rewrite Hf. simpl. apply flat_map_fmap_nil. intros s. simpl. by rewrite Ht.
Qed.

Lemma collect_child_map_nil {A B} (g : VNode → option B) (f : nat → A → VNode) o :
  skips_leaves g → (∀ i x, collect g (f i x) = []) →
  collect g (child_map f o) = [].
Proof.
  intros (Hn & _ & Hf) Hnil. destruct o as [xs|]; simpl; [|by rewrite Hn].
  rewrite Hf. simpl. by apply flat_map_imap_nil.
Qed.

Lemma collect_child_map_singleton {A B} (g : VNode → option B)
    (f : nat → A → VNode) (h : A → B) o :
  skips_leaves g → (∀ i x, collect g (f i x) = [h x]) →
  collect g (child_map f o) = h <$> default [] o.
Proof.
  intros (Hn & _ & Hf) Hone. destruct o as [xs|]; simpl; [|by rewrite Hn].
  rewrite Hf. simpl. by apply flat_map_imap_singleton.
Qed.

Lemma text_child_string o : textContent (child_string o) = default "" o.
Proof. by destruct o. Qed.

Lemma append_empty_r (s : string) : s +:+ "" = s.
Proof.
  induction s as [|c s IH]; [reflexivity|].
  change (String c (s +:+ "") = String c s). by f_equal.
Qed.

(* ===================================================================== *)
(** ** Lemmas on the page and its transitions                             *)
(* ===================================================================== *)

Ltac skips := repeat split; intros; reflexivity.

(** Collect over the loaded page with a collector that selects nothing
    inside the mapped arrays. *)
Ltac collect_handlers :=
  unfold PatientPage; cbn;
  rewrite !collect_child_string, !collect_child_strings by skips;
  rewrite !collect_child_map_nil by (skips || (intros; reflexivity));
  rewrite !flat_map_imap_nil
    by (intros; cbn; by rewrite !collect_child_string by skips);
  reflexivity.

Section Transitions.
Context `{MedplumCore} `{JSDate}.

Lemma page_on_click tab r :
  collect on_click (PatientPage tab (Some r)) = [onClick].
Proof. collect_handlers. Qed.

Lemma page_on_tab_change tab r :
  collect on_tab_change (PatientPage tab (Some r)) = [setTab].
Proof. collect_handlers. Qed.

Lemma commit_response w : response (commit w) = response w.
Proof. unfold commit. by case_decide. Qed.

Lemma commit_tab w : tab (commit w) = tab w.
Proof. unfold commit. by case_decide. Qed.

Lemma commit_calls w :
  calls (commit w) =
  calls w ++ (if decide (effect_deps w = Some (route_id w)) then []
              else [GraphqlCall (query (route_id w))]).
Proof. unfold commit. case_decide; simpl; [by rewrite app_nil_r|done]. Qed.

Lemma commit_fresh w :
  effect_deps w = Some (route_id w) → commit w = w.
Proof. intros E. unfold commit. by case_decide. Qed.

Lemma dispatch_click w r :
  response w = Some r → dispatch AddReportClicked w = run onClick w.
Proof. intros E. unfold dispatch, view. by rewrite E, page_on_click. Qed.

Lemma dispatch_tab w r v :
  response w = Some r → dispatch (TabSelected v) w = with_tab v w.
Proof. intros E. unfold dispatch, view. by rewrite E, page_on_tab_change. Qed.

(** While the loader is shown no user event reaches a callback. *)
Lemma dispatch_user_loading w e :
  response w = None → e = AddReportClicked ∨ (∃ v, e = TabSelected v) →
  dispatch e w = w.
Proof.
  intros E [->|[v ->]]; unfold dispatch, view; by rewrite E.
Qed.

Lemma run_onClick w :
  run onClick w =
  log_call (NavigateCall "/DiagnosticReport/undefined")
    (log_call (ConsoleLogCall [JString "Created Report"; JUndefined]) w).
Proof. reflexivity. Qed.

(** Only a fulfilment writes the response. *)
Lemma dispatch_response_frame w e :
  is_fulfilment e = false → response (dispatch e w) = response w.
Proof.
  intros He. destruct e as [i|p r|p d|p|v|]; try discriminate He.
  - reflexivity.
  - simpl. by destruct (promises w !! p) as [[]|].
  - destruct (response w) as [r|] eqn:E.
    + by rewrite (dispatch_tab w r).
    + rewrite dispatch_user_loading; eauto.
  - destruct (response w) as [r|] eqn:E.
    + by rewrite (dispatch_click w r).
    + rewrite dispatch_user_loading; eauto.
Qed.

Lemma step_response_frame w e :
  is_fulfilment e = false → response (step w e) = response w.
Proof.
  intros He. unfold step. by rewrite commit_response, dispatch_response_frame.
Qed.

Lemma steps_response_frame es : ∀ w,
  Forall (λ e, is_fulfilment e = false) es →
  response (steps w es) = response w.
Proof.
  induction es as [|e es IH]; intros w Hes; [done|].
  inversion Hes as [|?? He Hes']; subst. simpl.
  change (response (steps (step w e) es) = response w).
  by rewrite IH, step_response_frame.
Qed.

(** The promise table holds nothing but read queries reacting with
    [setResponse], in every state the page can reach. *)
Lemma only_queries_settle p w : only_queries w → only_queries (settle p w).
Proof.
  unfold only_queries, settle. simpl. intros Hw.
  destruct (decide (p < length (promises w))) as [Hp|Hp].
  - apply Forall_insert; auto.
  - rewrite list_insert_ge by lia. done.
Qed.

Lemma only_queries_commit w : only_queries w → only_queries (commit w).
Proof.
  unfold commit. case_decide; [done|].
  unfold only_queries. simpl. intros Hw.
  apply Forall_app. split; [done|]. apply Forall_singleton. by right.
Qed.

Lemma only_queries_dispatch w e : only_queries w → only_queries (dispatch e w).
Proof.
  intros Hw. destruct e as [i|p r|p d|p|v|].
  - done.
  - simpl. destruct (promises w !! p) as [[k|k|]|] eqn:E; try done.
    assert (k = setResponse) as ->.
    { pose proof (Forall_lookup_1 _ _ _ _ Hw E) as [?|?]; congruence. }
    by apply only_queries_settle.
  - simpl. destruct (promises w !! p) as [[k|k|]|] eqn:E; try done.
    pose proof (Forall_lookup_1 _ _ _ _ Hw E) as [?|?]; congruence.
  - simpl. destruct (promises w !! p) as [[k|k|]|] eqn:E; try done;
      by apply (only_queries_settle p) in Hw.
  - destruct (response w) as [r|] eqn:E.
    + by rewrite (dispatch_tab w r).
    + rewrite dispatch_user_loading; eauto.
  - destruct (response w) as [r|] eqn:E.
    + by rewrite (dispatch_click w r).
    + rewrite dispatch_user_loading; eauto.
Qed.

Lemma only_queries_step w e : only_queries w → only_queries (step w e).
Proof. intros. by apply only_queries_commit, only_queries_dispatch. Qed.

Lemma only_queries_steps es : ∀ w, only_queries w → only_queries (steps w es).
Proof.
  induction es as [|e es IH]; intros w Hw; [done|].
  apply (IH (step w e)). by apply only_queries_step.
Qed.

Lemma only_queries_mount id : only_queries (mount id).
Proof.
  unfold mount. apply only_queries_commit. unfold only_queries. simpl. constructor.
Qed.

Lemma only_queries_reachable id es : only_queries (steps (mount id) es).
Proof. apply only_queries_steps, only_queries_mount. Qed.

(** A fulfilled read query writes its result, whatever the state. *)
Lemma dispatch_query_fulfilled w p r :
  only_queries w → pending_query w p →
  dispatch (QueryFulfilled p r) w = with_response r (settle p w).
Proof.
  intros Hw [k E]. simpl. rewrite E.
  pose proof (Forall_lookup_1 _ _ _ _ Hw E) as [?|?]; [congruence|].
  by simplify_eq.
Qed.

(** In a reachable state only a tab selection writes the tab. *)
Lemma dispatch_tab_frame w e :
  only_queries w → is_tab_selection e = false → tab (dispatch e w) = tab w.
Proof.
  intros Hw He. destruct e as [i|p r|p d|p|v|]; try discriminate He.
  - done.
  - simpl. destruct (promises w !! p) as [[k|k|]|] eqn:E; try done.
    pose proof (Forall_lookup_1 _ _ _ _ Hw E) as [?|?]; [congruence|].
    by simplify_eq.
  - simpl. destruct (promises w !! p) as [[k|k|]|] eqn:E; try done.
    pose proof (Forall_lookup_1 _ _ _ _ Hw E) as [?|?]; congruence.
  - simpl. by destruct (promises w !! p) as [[]|].
  - destruct (response w) as [r|] eqn:E.
    + by rewrite (dispatch_click w r).
    + rewrite dispatch_user_loading; eauto.
Qed.

End Transitions.

(* ===================================================================== *)
(** ** The create-report action                                           *)
(* ===================================================================== *)

Section CreateReport.
Context `{MedplumCore} `{JSDate}.

Lemma invoke_handler w patient :
  invoke (handleAddDiagnosticReport patient) w =
  suspend (CreateResourceCall (submitted_report patient))
    (PendingCreate (λ _, Ret tt)) w.
Proof. reflexivity. Qed.

Lemma lookup_new_promise w c pr :
  promises (suspend c pr w) !! length (promises w) = Some pr.
Proof. simpl. by rewrite list_lookup_middle. Qed.

Lemma handler_fulfilled w patient d :
  dispatch (CreateFulfilled (length (promises w)) d)
    (invoke (handleAddDiagnosticReport patient) w) =
  settle (length (promises w)) (invoke (handleAddDiagnosticReport patient) w).
Proof.
  rewrite invoke_handler. unfold dispatch.
  by rewrite lookup_new_promise.
Qed.

(** C1: when the click handler of the create-report button runs, it awaits
    the handler function object itself (no call), so no create call is
    issued, the object it reads [id] from has none, and the path handed to
    the router is the constant [/DiagnosticReport/undefined], not one
    built from a created record's identifier. *)
Theorem C1_click_navigates_without_created_id w r :
  let w1 := with_response r w in
  let w2 := step w1 AddReportClicked in
  collect on_click (view w1) = [onClick]
  ∧ (∃ k, onClick = Await (JFunction "handleAddDiagnosticReport") k)
  ∧ get_id (JFunction "handleAddDiagnosticReport") = Some JUndefined
  ∧ omap navigated_to (calls w2) =
      omap navigated_to (calls w1) ++ ["/DiagnosticReport/undefined"]
  ∧ omap created_resource (calls w2) = omap created_resource (calls w1)
  ∧ Forall (λ pr, ∀ k, pr ≠ PendingCreate k) (drop (length (promises w1)) (promises w2)).
Proof.
  intros w1 w2. split; [apply page_on_click|].
  split; [by eexists|]. split; [done|].
  assert (dispatch AddReportClicked w1 = run onClick w1) as Hd
    by (by apply (dispatch_click w1 r)).
  subst w2. unfold step. rewrite Hd, run_onClick.
  split; [|split].
  - rewrite commit_calls. simpl. rewrite !omap_app. simpl.
    case_decide; simpl; by rewrite <- ?app_assoc, ?app_nil_r.
  - rewrite commit_calls. simpl. rewrite !omap_app. simpl.
    case_decide; simpl; by rewrite ?app_nil_r.
  - unfold commit. case_decide; simpl.
    + rewrite drop_all. constructor.
    + rewrite drop_app_length. apply Forall_singleton. intros k. discriminate.
Qed.

(** C2: for every displayed patient, invoking [handleAddDiagnosticReport]
    issues exactly one create call; its payload has resourceType
    DiagnosticReport, subject the reference to that patient, status final
    and the single coding Progress note. *)
Theorem C2_handler_issues_one_create w r :
  let patient := patient (data r) in
  let w1 := with_response r w in
  let w2 := invoke (handleAddDiagnosticReport patient) w1 in
  ∃ d,
    calls w2 = calls w1 ++ [CreateResourceCall d]
    ∧ handleAddDiagnosticReport patient = createResource d
    ∧ DiagnosticReport.resourceType d = "DiagnosticReport"
    ∧ DiagnosticReport.subject d = Some (createReference patient)
    ∧ DiagnosticReport.status d = Some "final"
    ∧ DiagnosticReport.code d =
        Some {| text := None; coding := Some [ {| code := Some "Progress note" |} ] |}.
Proof.
  intros patient w1 w2. exists (submitted_report patient).
  repeat split; reflexivity.
Qed.

(** C10: invoking [handleAddDiagnosticReport] leaves the response state as
    it was, when the create call is issued and when it is fulfilled: the
    patient, orders and reports on screen are those of the last query
    result, and the handler issues no read query. *)
Theorem C10_handler_leaves_response w patient d :
  let w1 := invoke (handleAddDiagnosticReport patient) w in
  let p := length (promises w) in
  let w2 := step w1 (CreateFulfilled p d) in
  response w1 = response w
  ∧ view w1 = view w
  ∧ calls w1 = calls w ++ [CreateResourceCall (submitted_report patient)]
  ∧ (∃ k, promises w1 !! p = Some (PendingCreate k))
  ∧ response w2 = response w
  ∧ view w2 = view w.
Proof.
  intros w1 p w2.
  assert (response w2 = response w ∧ tab w2 = tab w) as [Hr Ht].
  { subst w2 w1 p. unfold step.
    rewrite commit_response, commit_tab, handler_fulfilled. done. }
  repeat split; try done.
  - eexists. subst w1 p. rewrite invoke_handler. apply lookup_new_promise.
  - unfold view. by rewrite Hr, Ht.
Qed.

(** C8: the tab state starts as overview and, in every state the page
    reaches, no event other than a tab selection changes it; neither does
    invoking the create-report handler or the fulfilment of its call. *)
Theorem C8_tab_written_only_by_selection id es e :
  is_tab_selection e = false →
  let w := steps (mount id) es in
  tab (mount id) = Some "overview"
  ∧ tab (step w e) = tab w
  ∧ ∀ patient d,
      let w1 := invoke (handleAddDiagnosticReport patient) w in
      tab w1 = tab w ∧ tab (step w1 (CreateFulfilled (length (promises w)) d)) = tab w.
Proof.
  intros He w. split; [|split].
  - unfold mount. by rewrite commit_tab.
  - unfold step. rewrite commit_tab.
    apply dispatch_tab_frame; [apply only_queries_reachable|done].
  - intros patient d w1. split; [done|].
    subst w1. unfold step. by rewrite commit_tab, handler_fulfilled.
Qed.

End CreateReport.

(* ===================================================================== *)
(** ** The read query: loading, failure, overlapping requests             *)
(* ===================================================================== *)

Section ReadQuery.
Context `{MedplumCore} `{JSDate}.

Lemma view_loading w : response w = None → view w = Component Loader None [].
Proof. intros E. unfold view. by rewrite E. Qed.

Lemma mount_eq id :
  mount id = {| route_id := id; tab := Some "overview"; response := None;
                effect_deps := Some id; promises := [PendingQuery setResponse];
                calls := [GraphqlCall (query id)]; unhandled := 0 |}.
Proof. unfold mount, commit. by case_decide as E; [discriminate E|]. Qed.

Lemma loading_at_mount i : loading_at i (mount i).
Proof. rewrite mount_eq. by repeat split. Qed.

Lemma loading_at_step i w e :
  quiet i e = true → loading_at i w → loading_at i (step w e).
Proof.
  intros He (Hr & Hi & Hd & Hc). unfold step.
  assert (loading_at i (dispatch e w)) as (Hr' & Hi' & Hd' & Hc').
  { destruct e as [j|p r|p d|p|v|]; try discriminate He.
    - apply bool_decide_eq_true in He as ->. by repeat split.
    - simpl. destruct (promises w !! p) as [[]|]; by repeat split.
    - rewrite dispatch_user_loading; eauto. by repeat split.
    - rewrite dispatch_user_loading; eauto. by repeat split. }
  rewrite commit_fresh by congruence. by repeat split.
Qed.

Lemma loading_at_steps i es : ∀ w,
  Forall (λ e, quiet i e = true) es → loading_at i w → loading_at i (steps w es).
Proof.
  induction es as [|e es IH]; intros w Hes Hw; [done|].
  inversion Hes as [|?? He Hes']; subst.
  apply (IH (step w e)); [done|]. by apply loading_at_step.
Qed.

(** C3: for every identifier, as long as no result has arrived (and the
    identifier stays the same) the page shows the loader alone and has
    issued exactly one read query, whose text carries the identifier as
    the Patient id argument and in the subject filters of the orders list
    and of the reports list. *)
Theorem C3_loading_issues_one_query (id : string) es :
  Forall (λ e, quiet (Some id) e = true) es →
  let w := steps (mount (Some id)) es in
  view w = Component Loader None []
  ∧ calls w = [GraphqlCall (query (Some id))]
  ∧ ∃ a b c d, query (Some id) =
      a +:+ "Patient(id: " +:+ dq +:+ id +:+ dq +:+ ")" +:+ b +:+
      "ServiceRequestList(subject: " +:+ dq +:+ "Patient/" +:+ id +:+ dq +:+ ")" +:+ c +:+
      "DiagnosticReportList(subject: " +:+ dq +:+ "Patient/" +:+ id +:+ dq +:+ ")" +:+ d.
Proof.
  intros Hes w.
  destruct (loading_at_steps (Some id) es (mount (Some id)) Hes
              (loading_at_mount _)) as (Hr & _ & _ & Hc).
  split; [by apply view_loading|]. split; [done|].
  unfold query, template. simpl (to_string _).
  lazymatch goal with
  | |- ∃ _ _ _ _, ?l0 +:+ _ +:+ _ +:+ _ +:+ ?l1 +:+ _ +:+ _ +:+ _ +:+ _ +:+ ?l2
                   +:+ _ +:+ _ +:+ _ +:+ _ +:+ ?l3 = _ =>
      exists (substring 0 (String.length l0 - 12) l0),
             (substring 1 (String.length l1 - 29) l1),
             (substring 1 (String.length l2 - 31) l2),
             (substring 1 (String.length l3 - 1) l3)
  end.
  reflexivity.
Qed.

(** C4: when the read query is rejected nothing observes it: the rejection
    is recorded as unhandled, no call is made in reaction, the response is
    never set by it, and the page keeps showing the loader through every
    later event that is not a fulfilment. *)
Theorem C4_rejected_query_stays_loading id es :
  Forall (λ e, is_fulfilment e = false) es →
  let w0 := mount id in
  let w1 := step w0 (Rejected 0) in
  pending_query w0 0
  ∧ response w1 = None
  ∧ calls w1 = calls w0
  ∧ unhandled w1 = 1
  ∧ promises w1 = [Settled]
  ∧ response (steps w1 es) = None
  ∧ view (steps w1 es) = Component Loader None [].
Proof.
  intros Hes w0 w1.
  assert (w1 = {| route_id := id; tab := Some "overview"; response := None;
                  effect_deps := Some id; promises := [Settled];
                  calls := [GraphqlCall (query id)]; unhandled := 1 |}) as Hw1.
  { subst w1 w0. rewrite mount_eq. unfold step. simpl dispatch.
    by rewrite commit_fresh. }
  assert (response (steps w1 es) = None) as Hr
    by (by rewrite steps_response_frame, Hw1).
  subst w0. rewrite mount_eq. split; [by eexists|].
  rewrite Hw1 in *. repeat split; try done.
  by apply view_loading.
Qed.

(** C7: a fulfilment of any pending read query is written to the response
    state, whatever identifier the page is at and whichever request it
    answers; the page then shows that result until the next fulfilment.
    With overlapping requests the result shown is the last to arrive. *)
Theorem C7_last_arrival_wins id es p r es' :
  let w := steps (mount id) es in
  pending_query w p →
  Forall (λ e, is_fulfilment e = false) es' →
  let w1 := step w (QueryFulfilled p r) in
  response w1 = Some r
  ∧ route_id w1 = route_id w
  ∧ response (steps w1 es') = Some r
  ∧ view (steps w1 es') = PatientPage (tab (steps w1 es')) (Some r).
Proof.
  intros w Hp Hes' w1.
  assert (response w1 = Some r) as Hr.
  { subst w1. unfold step. rewrite commit_response.
    rewrite dispatch_query_fulfilled; [done| apply only_queries_reachable | done]. }
  assert (response (steps w1 es') = Some r) as Hr'
    by (by rewrite steps_response_frame).
  repeat split; try done.
  - subst w1. unfold step.
    rewrite dispatch_query_fulfilled; [| apply only_queries_reachable | done].
    unfold commit. by case_decide.
  - unfold view. by rewrite Hr'.
Qed.

End ReadQuery.

(* ===================================================================== *)
(** ** The overview tab                                                   *)
(* ===================================================================== *)

(** Discharge the parts of the tree a collector selects nothing from. *)
Ltac collect_rest :=
  rewrite ?collect_child_string, ?collect_child_strings by skips;
  rewrite ?collect_child_map_nil by (skips || (intros; reflexivity));
  rewrite ?flat_map_imap_nil
    by (intros; cbn; by rewrite ?collect_child_string by skips).

(** One list item of either list. *)
Ltac list_item :=
  intros ? ?; cbn; rewrite collect_child_string by skips; cbn;
  rewrite text_child_string, append_empty_r; reflexivity.

Section Overview.
Context `{MedplumCore} `{JSDate}.

Lemma page_li_texts tab r :
  collect li_text (PatientPage tab (Some r)) =
  (order_text <$> orders (data r)) ++ (report_text <$> reports (data r)).
Proof.
  unfold PatientPage. cbn. collect_rest.
  rewrite (flat_map_imap_singleton (collect li_text) _ order_text) by list_item.
  rewrite (flat_map_imap_singleton (collect li_text) _ report_text) by list_item.
  cbn. by rewrite !app_nil_r.
Qed.

Lemma page_plain_div_texts tab r :
  collect plain_div_text (PatientPage tab (Some r)) =
  [ default "" (Patient.birthDate (patient (data r)));
    "Created Date: " +:+ formatDate (Patient.meta (patient (data r)) ?. lastUpdated) ].
Proof.
  unfold PatientPage. cbn. collect_rest.
  rewrite text_child_string, !append_empty_r. reflexivity.
Qed.

(** C5: on a loaded page the overview panel holds one address entry per
    element of the patient's address list and one contact entry per
    element of the telecom list, in order; the cell after the prefix cell
    reads First: followed by the first given name of the first name entry,
    and the fourth cell reads Last: followed by its family name. *)
Theorem C5_overview_addresses_contacts_names tab r :
  let patient := patient (data r) in
  ∃ panel,
    collect (tabs_panel "overview") (PatientPage tab (Some r)) = [panel]
    ∧ collect address_display panel = default [] (Patient.address patient)
    ∧ collect contact_display panel = default [] (Patient.telecom patient)
    ∧ length (collect td_text panel) = 5
    ∧ (∀ n ns g gs,
         Patient.name patient = Some (n :: ns) → given n = Some (g :: gs) →
         collect td_text panel !! 1 = Some ("First: " +:+ g))
    ∧ (∀ n ns f,
         Patient.name patient = Some (n :: ns) → family n = Some f →
         collect td_text panel !! 3 = Some ("Last: " +:+ f)).
Proof.
  intros patient. eexists. split; [collect_handlers|].
  split; [|split; [|split; [|split]]].
  - cbn.
    rewrite (collect_child_map_singleton address_display _ id)
      by (skips || (intros; reflexivity)).
    collect_rest. rewrite list_fmap_id. by rewrite !app_nil_r.
  - cbn.
    rewrite (collect_child_map_singleton contact_display _ id)
      by (skips || (intros; reflexivity)).
    collect_rest. rewrite list_fmap_id. by rewrite !app_nil_r.
  - cbn. collect_rest. reflexivity.
  - intros n ns g gs Hn Hg. cbn. collect_rest. cbn.
    fold patient. rewrite Hn. cbn. rewrite Hg. cbn. by rewrite append_empty_r.
  - intros n ns f Hn Hf. cbn. collect_rest. cbn.
    fold patient. rewrite Hn. cbn. rewrite Hf. cbn. by rewrite append_empty_r.
Qed.

(** C6: on a loaded page with n orders and m reports the overview panel
    has the headings Orders (n) and Reports (m); between them stand
    exactly n list items, one per order in order, each linked to
    /ServiceRequest/<id>, and after Reports (m) stand the m report items. *)
Theorem C6_overview_order_and_report_lists tab r :
  let orders := orders (data r) in
  let reports := reports (data r) in
  ∃ panel order_items report_items,
    collect (tabs_panel "overview") (PatientPage tab (Some r)) = [panel]
    ∧ collect outline panel =
        [ Heading "Birth Date"; Heading "Address"; Heading "Contact";
          Heading "Demographics";
          Heading ("Orders (" +:+ number_to_string (length orders) +:+ ")") ]
        ++ order_items ++
        [ Heading ("Reports (" +:+ number_to_string (length reports) +:+ ")") ]
        ++ report_items
    ∧ length order_items = length orders
    ∧ order_items =
        (λ o, LinkedItem ("/ServiceRequest/" +:+ template (ServiceRequest.id o))
                (order_text o)) <$> orders
    ∧ length report_items = length reports
    ∧ report_items =
        (λ o, LinkedItem ("/DiagnosticReport/" +:+ template (DiagnosticReport.id o))
                (report_text o)) <$> reports.
Proof.
  intros orders reports. eexists _, _, _. split; [collect_handlers|].
  split; [|split; [|split; [|split]]]; [| | reflexivity | | reflexivity].
  - cbn. collect_rest.
    rewrite (flat_map_imap_singleton (collect outline) _
      (λ o, LinkedItem ("/ServiceRequest/" +:+ template (ServiceRequest.id o))
              (order_text o))) by list_item.
    rewrite (flat_map_imap_singleton (collect outline) _
      (λ o, LinkedItem ("/DiagnosticReport/" +:+ template (DiagnosticReport.id o))
              (report_text o))) by list_item.
    cbn. rewrite !app_nil_r. reflexivity.
  - by rewrite length_fmap.
  - by rewrite length_fmap.
Qed.

(** C9: [formatDate] returns the empty string on undefined and on the
    empty string, and the locale date string of the parsed date on every
    other input; it is a total function.  Where [lastUpdated] is missing
    on the patient, on an order or on a report, the page shows empty text
    in its place. *)
Theorem C9_formatDate_empty_or_locale tab r :
  let page := PatientPage tab (Some r) in
  formatDate None = ""
  ∧ formatDate (Some "") = ""
  ∧ (∀ c s, formatDate (Some (String c s)) =
             toLocaleDateString (Date_new (String c s)))
  ∧ (Patient.meta (patient (data r)) ?. lastUpdated = None →
       collect plain_div_text page !! 1 = Some "Created Date: ")
  ∧ (∀ i o, orders (data r) !! i = Some o →
       ServiceRequest.meta o ?. lastUpdated = None →
       collect li_text page !! i =
         Some (default "" (ServiceRequest.code o ?. text) +:+ " ()"))
  ∧ (∀ j o, reports (data r) !! j = Some o →
       DiagnosticReport.meta o ?. lastUpdated = None →
       collect li_text page !! (length (orders (data r)) + j) =
         Some (default "" (DiagnosticReport.code o ?. text) +:+ " ()")).
Proof.
  intros page. subst page. repeat split; try reflexivity.
  - intros Hm. rewrite page_plain_div_texts, Hm. reflexivity.
  - intros i o Hi Hm. rewrite page_li_texts.
    rewrite lookup_app_l by (rewrite length_fmap; by eapply lookup_lt_Some).
    rewrite list_lookup_fmap, Hi. unfold order_text. simpl. by rewrite Hm.
  - intros j o Hj Hm. rewrite page_li_texts.
    rewrite lookup_app_r by (rewrite length_fmap; lia).
    rewrite length_fmap, Nat.add_comm, Nat.add_sub.
    rewrite list_lookup_fmap, Hj. unfold report_text. simpl. by rewrite Hm.
Qed.

End Overview.

(* ===================================================================== *)
(** ** Worked examples                                                    *)
(* ===================================================================== *)

Section Examples.
#[local] Existing Instance example_core.
#[local] Existing Instance example_date.

Example formatDate_examples :
  formatDate None = "" ∧ formatDate (Some "") = ""
  ∧ formatDate (Some "2023-04-05T10:00:00Z") = "2023-04-05".
Proof. by vm_compute. Qed.

Example jane_outline :
  ∃ panel, collect (tabs_panel "overview") (PatientPage (Some "overview") (Some jane_response)) = [panel]
  ∧ collect outline panel =
      [ Heading "Birth Date"; Heading "Address"; Heading "Contact";
        Heading "Demographics"; Heading "Orders (3)";
        LinkedItem "/ServiceRequest/a1" "CBC (2023-04-06)";
        LinkedItem "/ServiceRequest/a2" "Lipid panel (2023-04-06)";
        LinkedItem "/ServiceRequest/a3" "X-ray (2023-04-06)";
        Heading "Reports (0)" ].
Proof. eexists. split; by vm_compute. Qed.

Example click_on_jane :
  calls (steps (mount (Some "123")) [QueryFulfilled 0 jane_response; AddReportClicked]) =
  [ GraphqlCall (query (Some "123"));
    ConsoleLogCall [JString "Created Report"; JUndefined];
    NavigateCall "/DiagnosticReport/undefined" ].
Proof. by vm_compute. Qed.

Example handler_on_jane :
  omap created_resource
    (calls (invoke (handleAddDiagnosticReport jane)
              (steps (mount (Some "123")) [QueryFulfilled 0 jane_response]))) =
  [ {| DiagnosticReport.resourceType := "DiagnosticReport";
       DiagnosticReport.id := None;
       DiagnosticReport.meta := None;
       DiagnosticReport.subject :=
         Some {| reference := Some "Patient/123"; display := None |};
       DiagnosticReport.status := Some "final";
       DiagnosticReport.code :=
         Some {| text := None; coding := Some [ {| code := Some "Progress note" |} ] |} |} ].
Proof. by vm_compute. Qed.

(** Witness of C3: the page for identifier 123 through a rejection, a tab
    selection, a click and a re-render at the same identifier. *)
Lemma C3_witness :
  let es := [Rejected 5; TabSelected (Some "history"); AddReportClicked;
             RouteChange (Some "123")] in
  Forall (λ e, quiet (Some "123") e = true) es
  ∧ view (steps (mount (Some "123")) es) = Component Loader None []
  ∧ calls (steps (mount (Some "123")) es) = [GraphqlCall (query (Some "123"))].
Proof.
  intros es.
  assert (Forall (λ e, quiet (Some "123") e = true) es) as Hes
    by (repeat constructor).
  split; [exact Hes|].
  destruct (C3_loading_issues_one_query "123" es Hes) as (Hv & Hc & _).
  split; [exact Hv | exact Hc].
Defined.

(** Witness of C4: the query for 123 is rejected, the identifier changes,
    the second query is rejected too, the user clicks. *)
Lemma C4_witness :
  let es := [RouteChange (Some "456"); Rejected 1; AddReportClicked] in
  Forall (λ e, is_fulfilment e = false) es
  ∧ response (steps (step (mount (Some "123")) (Rejected 0)) es) = None
  ∧ view (steps (step (mount (Some "123")) (Rejected 0)) es) = Component Loader None [].
Proof.
  intros es.
  assert (Forall (λ e, is_fulfilment e = false) es) as Hes
    by (repeat constructor).
  split; [exact Hes|].
  destruct (C4_rejected_query_stays_loading (Some "123") es Hes)
    as (_ & _ & _ & _ & _ & Hr & Hv).
  split; [exact Hr | exact Hv].
Defined.

(** Witness of C7: the page goes from 456 to 123, the answer for 123
    arrives, then the answer for 456: the page at 123 shows patient 456. *)
Lemma C7_witness :
  let w := steps (mount (Some "456")) [RouteChange (Some "123"); QueryFulfilled 1 jane_response] in
  let w1 := step w (QueryFulfilled 0 bare_response) in
  pending_query w 0
  ∧ omap graphql_query (calls w) = [query (Some "456"); query (Some "123")]
  ∧ route_id w1 = Some "123"
  ∧ response (steps w1 [TabSelected (Some "timeline")]) = Some bare_response
  ∧ Patient.id (patient (data bare_response)) = Some "456".
Proof.
  intros w w1.
  assert (pending_query w 0) as Hp by (eexists; reflexivity).
  assert (Forall (λ e, is_fulfilment e = false) [TabSelected (Some "timeline")]) as Hes
    by (repeat constructor).
  destruct (C7_last_arrival_wins (Some "456")
              [RouteChange (Some "123"); QueryFulfilled 1 jane_response]
              0 bare_response [TabSelected (Some "timeline")] Hp Hes)
    as (_ & Hi & Hr & _).
  split; [exact Hp|]. split; [reflexivity|].
  split; [exact Hi|]. split; [exact Hr | reflexivity].
Defined.

(** Witness of C8: on the loaded page for Jane, with the timeline tab
    selected, a click on the button leaves the tab where it is. *)
Lemma C8_witness :
  let es := [QueryFulfilled 0 jane_response; TabSelected (Some "timeline")] in
  is_tab_selection AddReportClicked = false
  ∧ tab (steps (mount (Some "123")) es) = Some "timeline"
  ∧ tab (step (steps (mount (Some "123")) es) AddReportClicked) = Some "timeline".
Proof.
  intros es. split; [reflexivity|]. split; [reflexivity|].
  destruct (C8_tab_written_only_by_selection (Some "123") es AddReportClicked eq_refl)
    as (_ & Ht & _).
  exact Ht.
Defined.

(** Witness of C5: Jane A. Doe, two addresses, one contact point. *)
Lemma C5_witness :
  ∃ panel,
    collect (tabs_panel "overview") (PatientPage (Some "overview") (Some jane_response)) = [panel]
    ∧ length (collect address_display panel) = 2
    ∧ length (collect contact_display panel) = 1
    ∧ collect td_text panel !! 1 = Some "First: Jane"
    ∧ collect td_text panel !! 3 = Some "Last: Doe".
Proof.
  destruct (C5_overview_addresses_contacts_names (Some "overview") jane_response)
    as (panel & Hp & Ha & Hc & _ & Hf & Hl).
  exists panel. split; [exact Hp|].
  split; [by rewrite Ha|]. split; [by rewrite Hc|].
  split.
  - exact (Hf _ _ _ _ eq_refl eq_refl).
  - exact (Hl _ _ _ eq_refl eq_refl).
Defined.

(** Witness of C9: a patient, an order and a report without
    [lastUpdated]. *)
Lemma C9_witness :
  let page := PatientPage (Some "overview") (Some bare_response) in
  collect plain_div_text page !! 1 = Some "Created Date: "
  ∧ collect li_text page !! 0 = Some "MRI ()"
  ∧ collect li_text page !! 1 = Some "Note ()".
Proof.
  intros page.
  destruct (C9_formatDate_empty_or_locale (Some "overview") bare_response)
    as (_ & _ & _ & Hp & Ho & Hr).
  split; [exact (Hp eq_refl)|]. split.
  - exact (Ho 0 _ eq_refl eq_refl).
  - exact (Hr 0 _ eq_refl eq_refl).
Defined.

End Examples.

(* ===================================================================== *)
(** ** Further properties: outbound calls over whole runs                 *)
(* ===================================================================== *)

Section Runs.
Context `{MedplumCore} `{JSDate}.

Lemma commit_deps w : effect_deps (commit w) = Some (route_id (commit w)).
Proof. unfold commit. by case_decide. Qed.

Lemma ready_mount id : ready (mount id).
Proof. split; [apply only_queries_mount | apply commit_deps]. Qed.

Lemma ready_step w e : ready w → ready (step w e).
Proof. intros [Hq _]. split; [by apply only_queries_step | apply commit_deps]. Qed.

Lemma ready_steps es : ∀ w, ready w → ready (steps w es).
Proof.
  induction es as [|e es IH]; intros w Hw; [done|].
  apply (IH (step w e)). by apply ready_step.
Qed.

Lemma ready_reachable id es : ready (steps (mount id) es).
Proof. apply ready_steps, ready_mount. Qed.

(** What the callback of an event does to a ready state. *)
Lemma dispatch_ready w e :
  ready w →
  route_id (dispatch e w) = match e with RouteChange j => j | _ => route_id w end
  ∧ effect_deps (dispatch e w) = effect_deps w
  ∧ calls (dispatch e w) =
      calls w ++ match e with RouteChange _ => [] | _ => new_calls w e end.
Proof.
  intros [Hq Hd]. destruct e as [j|p r|p d|p|v|].
  - simpl. by rewrite app_nil_r.
  - simpl. destruct (promises w !! p) as [[k|k|]|] eqn:E; rewrite ?app_nil_r; try done.
    pose proof (Forall_lookup_1 _ _ _ _ Hq E) as [?|?]; [congruence|].
    by simplify_eq.
  - simpl. destruct (promises w !! p) as [[k|k|]|] eqn:E; rewrite ?app_nil_r; try done.
    pose proof (Forall_lookup_1 _ _ _ _ Hq E) as [?|?]; congruence.
  - simpl. destruct (promises w !! p) as [[k|k|]|] eqn:E; simpl; by rewrite ?app_nil_r.
  - destruct (response w) as [r|] eqn:E.
    + rewrite (dispatch_tab w r) by done. simpl. by rewrite app_nil_r.
    + rewrite dispatch_user_loading by eauto. simpl. by rewrite app_nil_r.
  - unfold new_calls. destruct (response w) as [r|] eqn:E.
    + rewrite (dispatch_click w r) by done. rewrite run_onClick. simpl.
      by rewrite <- app_assoc.
    + rewrite dispatch_user_loading by eauto. by rewrite app_nil_r.
Qed.

Lemma step_ready w e :
  ready w →
  route_id (step w e) = match e with RouteChange j => j | _ => route_id w end
  ∧ calls (step w e) = calls w ++ new_calls w e.
Proof.
  intros Hw. destruct (dispatch_ready w e Hw) as (Hi & Hd & Hc).
  destruct Hw as [_ Hf]. unfold step.
  destruct e as [j|p r|p d|p|v|];
    try (rewrite commit_fresh by congruence; by rewrite Hi, Hc).
  rewrite commit_calls. unfold commit. rewrite Hd, Hf, Hi, Hc.
  rewrite app_nil_r. simpl.
  destruct (decide (j = route_id w)) as [->|Hne].
  - by rewrite !decide_True by done.
  - by rewrite !decide_False by congruence.
Qed.

Lemma queries_steps es : ∀ w, ready w →
  omap graphql_query (calls (steps w es)) =
    omap graphql_query (calls w) ++ (query <$> identifier_changes (route_id w) es)
  ∧ route_id (steps w es) =
      default (route_id w) (last (identifier_changes (route_id w) es)).
Proof.
  induction es as [|e es IH]; intros w Hw.
  { simpl. by rewrite app_nil_r. }
  destruct (step_ready w e Hw) as [Hi Hc].
  destruct (IH (step w e) (ready_step w e Hw)) as [IHq IHr].
  change (steps w (e :: es)) with (steps (step w e) es).
  rewrite IHq, IHr, Hc, Hi, omap_app.
  destruct e as [j|p r|p d|p|v|]; simpl; rewrite ?app_nil_r; try done.
  - destruct (decide (j = route_id w)) as [->|Hne]; simpl.
    + by rewrite app_nil_r.
    + rewrite <- app_assoc. split; [done|].
      rewrite last_cons. destruct (last (identifier_changes j es)); reflexivity.
  - destruct (response w); simpl; by rewrite app_nil_r.
Qed.

Lemma never_created_steps es : ∀ w,
  ready w → never_created (calls w) → never_created (calls (steps w es)).
Proof.
  induction es as [|e es IH]; intros w Hw Hc; [done|].
  apply (IH (step w e)); [by apply ready_step|].
  destruct (step_ready w e Hw) as [_ ->]. destruct Hc as [Hc Hn].
  unfold never_created. rewrite !omap_app, Hc.
  destruct e as [j|p r|p d|p|v|]; simpl; rewrite ?app_nil_r; try done.
  - by destruct (decide (j = route_id w)); simpl; rewrite ?app_nil_r.
  - destruct (response w); simpl; rewrite ?app_nil_r; [|done].
    split; [done|]. apply Forall_app. split; [done|]. by apply Forall_singleton.
Qed.



(** X1: in every state the page reaches, an event adds to the call log
    exactly this: one read query for the new identifier when the
    identifier changes, a console line and a navigation to
    /DiagnosticReport/undefined when the button is clicked while a result
    is shown, and nothing in every other case (same identifier, any
    settlement, tab selection, click while loading). *)
Theorem X1_calls_per_event id es e :
  let w := steps (mount id) es in
  calls (step w e) = calls w ++ new_calls w e.
Proof. intros w. by apply step_ready, ready_reachable. Qed.

(** X2: over a whole run the read queries issued are, in order, the one
    for the first identifier and one for each identifier that differs
    from the one before it; the page ends at the last of them. *)
Theorem X2_queries_follow_identifier_changes id es :
  let w := steps (mount id) es in
  omap graphql_query (calls w) = query <$> (id :: identifier_changes id es)
  ∧ route_id w = default id (last (identifier_changes id es)).
Proof.
  intros w. destruct (queries_steps es (mount id) (ready_mount id)) as [Hq Hr].
  rewrite mount_eq in Hq, Hr at 2 3. simpl in Hq, Hr. done.
Qed.

(** X3: whatever the events, the page never issues a create call and
    never holds a pending creation, and every navigation it requests goes
    to /DiagnosticReport/undefined. *)
Theorem X3_no_report_is_ever_created id es :
  let w := steps (mount id) es in
  omap created_resource (calls w) = []
  ∧ Forall (λ to, to = "/DiagnosticReport/undefined") (omap navigated_to (calls w))
  ∧ Forall (λ pr, ∀ k, pr ≠ PendingCreate k) (promises w).
Proof.
  intros w.
  destruct (never_created_steps es (mount id) (ready_mount id)) as [Hc Hn].
  { rewrite mount_eq. by split. }
  split; [done|]. split; [done|].
  eapply Forall_impl; [apply (only_queries_reachable id es)|].
  intros pr [->| ->] k; discriminate.
Qed.


(** X5: when the identifier changes while a result is shown, the page
    issues the query for the new identifier and keeps showing the previous
    result unchanged while that query is pending. *)
Theorem X5_identifier_change_keeps_previous_result id es j r :
  let w := steps (mount id) es in
  response w = Some r → j ≠ route_id w →
  let w' := step w (RouteChange j) in
  route_id w' = j
  ∧ response w' = Some r
  ∧ view w' = view w
  ∧ calls w' = calls w ++ [GraphqlCall (query j)]
  ∧ promises w' = promises w ++ [PendingQuery setResponse].
Proof.
  intros w Hr Hj w'.
  destruct (ready_reachable id es) as [_ Hd]. fold w in Hd.
  subst w'. unfold step, commit. simpl.
  rewrite Hd. rewrite decide_False by congruence. simpl.
  by repeat split.
Qed.

(** X6: while the loader is shown a click or a tab selection reaches no
    callback: the state, call log included, is unchanged. *)
Theorem X6_user_events_ignored_while_loading id es e :
  let w := steps (mount id) es in
  response w = None → e = AddReportClicked ∨ (∃ v, e = TabSelected v) →
  step w e = w.
Proof.
  intros w Hr He. destruct (ready_reachable id es) as [_ Hd]. fold w in Hd.
  unfold step. rewrite dispatch_user_loading by done. by apply commit_fresh.
Qed.

(** X7: on a loaded page a tab selection sets the tab state to the
    selected value and changes nothing else (no call, same result, same
    promises); the page is then rendered with that value. *)
Theorem X7_tab_selection_changes_only_the_tab id es r v :
  let w := steps (mount id) es in
  response w = Some r →
  step w (TabSelected v) = with_tab v w
  ∧ view (step w (TabSelected v)) = PatientPage v (Some r).
Proof.
  intros w Hr. destruct (ready_reachable id es) as [_ Hd]. fold w in Hd.
  assert (step w (TabSelected v) = with_tab v w) as ->.
  { unfold step. rewrite (dispatch_tab w r) by done. by apply commit_fresh. }
  split; [done|]. unfold view. simpl. by rewrite Hr.
Qed.

(** X8: if the create call of [handleAddDiagnosticReport] is rejected,
    nothing reacts: response, tab and call log stay as they were, the
    rejection counts as unhandled, and a later fulfilment of the same
    promise is ignored. *)
Theorem X8_failed_creation_is_unhandled w patient d :
  let w1 := invoke (handleAddDiagnosticReport patient) w in
  let p := length (promises w) in
  let w2 := dispatch (Rejected p) w1 in
  response w2 = response w ∧ tab w2 = tab w ∧ calls w2 = calls w1
  ∧ unhandled w2 = S (unhandled w)
  ∧ promises w2 = promises w ++ [Settled]
  ∧ dispatch (CreateFulfilled p d) w2 = w2.
Proof.
  intros w1 p w2. subst w2 w1 p. rewrite invoke_handler.
  set (w1 := suspend _ _ w).
  assert (dispatch (Rejected (length (promises w))) w1 =
          unhandled_rejection (settle (length (promises w)) w1)) as ->.
  { unfold dispatch. subst w1. by rewrite lookup_new_promise. }
  assert (promises (settle (length (promises w)) w1) = promises w ++ [Settled]) as Hins.
  { subst w1. simpl. rewrite insert_app_r_alt by lia. by rewrite Nat.sub_diag. }
  repeat split; try done.
  unfold dispatch.
  replace (promises (unhandled_rejection (settle (length (promises w)) w1)))
    with (promises w ++ [Settled]) by (by rewrite <- Hins).
  by rewrite list_lookup_middle.
Qed.

End Runs.

(* ===================================================================== *)
(** ** Further properties: the query text and the rendered tree           *)
(* ===================================================================== *)

Lemma length_append (s1 s2 : string) :
  String.length (s1 +:+ s2) = String.length s1 + String.length s2.
Proof.
  induction s1 as [|c s1 IH]; [reflexivity|].
  change (S (String.length (s1 +:+ s2)) = S (String.length s1 + String.length s2)).
  by rewrite IH.
Qed.

Lemma append_inj_length (a b x y : string) :
  String.length a = String.length b → a +:+ x = b +:+ y → a = b.
Proof.
  revert b. induction a as [|c a IH]; intros [|c' b] Hl Heq; try discriminate Hl.
  - reflexivity.
  - change (String c (a +:+ x) = String c' (b +:+ y)) in Heq.
    injection Heq as -> Heq. f_equal. apply IH; [|done].
    simpl in Hl. lia.
Qed.

(** A text in which [a] stands at three places determines [a]. *)
Lemma interleave_inj (p1 p2 p3 a b : string) :
  a +:+ p1 +:+ a +:+ p2 +:+ a +:+ p3 = b +:+ p1 +:+ b +:+ p2 +:+ b +:+ p3 → a = b.
Proof.
  intros Heq. eapply append_inj_length; [|exact Heq].
  apply (f_equal String.length) in Heq. rewrite !length_append in Heq. lia.
Qed.

Lemma query_inj (a b : string) : query (Some a) = query (Some b) → a = b.
Proof.
  unfold query, template. simpl (to_string _).
  lazymatch goal with
  | |- ?l0 +:+ ?q +:+ _ +:+ _ +:+ ?l1 +:+ _ +:+ ?pa +:+ _ +:+ _ +:+ ?l2
         +:+ _ +:+ _ +:+ _ +:+ _ +:+ ?l3 = _ → _ =>
      change ((l0 +:+ q) +:+ a +:+ (q +:+ l1 +:+ q +:+ pa) +:+ a +:+
              (q +:+ l2 +:+ q +:+ pa) +:+ a +:+ (q +:+ l3) =
              (l0 +:+ q) +:+ b +:+ (q +:+ l1 +:+ q +:+ pa) +:+ b +:+
              (q +:+ l2 +:+ q +:+ pa) +:+ b +:+ (q +:+ l3) → a = b)
  end.
  intros Heq. apply String.app_inj in Heq. by apply interleave_inj in Heq.
Qed.




Lemma text_of_strings ss :
  foldr (λ c acc, textContent c +:+ acc) "" (Text <$> ss) = String.concat "" ss.
Proof.
  induction ss as [|s ss IH]; [reflexivity|].
  change (s +:+ foldr (λ c acc, textContent c +:+ acc) "" (Text <$> ss) =
          String.concat "" (s :: ss)).
  rewrite IH. destruct ss as [|s' ss]; [apply append_empty_r|reflexivity].
Qed.

Lemma text_child_strings o :
  textContent (child_strings o) = String.concat "" (default [] o).
Proof. destruct o as [ss|]; [apply text_of_strings|reflexivity]. Qed.




Section Tree.
Context `{MedplumCore} `{JSDate}.


(** X9: two identifiers give the same query text only if they are equal
    (the identifier is inserted as it is, three times); a missing
    identifier, however, gives the query of the identifier undefined,
    and the page issues it. *)
Theorem X9_query_determines_identifier (a b : string) :
  a ≠ b →
  query (Some a) ≠ query (Some b)
  ∧ query None = query (Some "undefined")
  ∧ calls (mount None) = [GraphqlCall (query (Some "undefined"))].
Proof.
  intros Hab. split; [|split].
  - intros Heq. by apply Hab, query_inj.
  - reflexivity.
  - by rewrite mount_eq.
Qed.


(** X11: on a loaded page every tab of the tab list has a panel of the
    same value, in the same order, the three values are distinct, the
    Tabs element carries the tab state, and the initial tab state names
    one of the panels. *)
Theorem X11_tabs_match_panels t r id :
  let page := PatientPage t (Some r) in
  collect tab_value page = collect panel_value page
  ∧ NoDup (collect panel_value page)
  ∧ collect tabs_value page = [t]
  ∧ ∃ v, tab (mount id) = Some v ∧ v ∈ collect panel_value page.
Proof.
  intros page.
  assert (collect tab_value page = ["overview"; "timeline"; "history"]) as Ht
    by (subst page; collect_handlers).
  assert (collect panel_value page = ["overview"; "timeline"; "history"]) as Hp
    by (subst page; collect_handlers).
  rewrite Ht, Hp. split; [done|]. split.
  - compute_done.
  - split; [subst page; collect_handlers|].
    exists "overview". split; [by rewrite mount_eq | compute_done].
Qed.

(** X12: the five name cells of a loaded page, for the first name entry
    if there is one: the prefixes, and the suffixes, run together without
    a separator; First and Middle are the first and the second given
    name, later given names are not shown; a missing part, or a missing
    name, leaves the label alone. *)
Theorem X12_name_cells tab r :
  let n := Patient.name (patient (data r)) ≫= head in
  collect td_text (PatientPage tab (Some r)) =
  [ "Prefix: " +:+ String.concat "" (default [] (n ≫= prefix));
    "First: " +:+ default "" ((n ≫= given) ≫= head);
    "Middle: " +:+ default "" ((n ≫= given) ≫= (λ g, g !! 1));
    "Last: " +:+ default "" (n ≫= family);
    "Suffix: " +:+ String.concat "" (default [] (n ≫= suffix)) ].
Proof.
  intros n. unfold PatientPage. cbn. collect_rest. cbn.
  rewrite !text_child_string, !text_child_strings, !append_empty_r.
  subst n. destruct (Patient.name (patient (data r))) as [[|n ns]|]; try reflexivity.
  cbn. destruct (given n) as [[|g1 [|g2 gs]]|]; reflexivity.
Qed.

(** X13: the links of a loaded page are those of the orders followed by
    those of the reports.  An order's link text is its code text alone,
    the date standing after the link in the list item; a report's link
    text is the whole item, code text and date. *)
Theorem X13_link_texts tab r :
  let page := PatientPage tab (Some r) in
  collect anchor_text page =
    ((λ o, default "" (ServiceRequest.code o ?. text)) <$> orders (data r))
    ++ (report_text <$> reports (data r))
  ∧ collect li_text page =
    ((λ o, default "" (ServiceRequest.code o ?. text) +:+ " (" +:+
           formatDate (ServiceRequest.meta o ?. lastUpdated) +:+ ")") <$> orders (data r))
    ++ (report_text <$> reports (data r)).
Proof.
  intros page. subst page. split; [|apply page_li_texts].
  unfold PatientPage. cbn. collect_rest.
  rewrite (flat_map_imap_singleton (collect anchor_text) _
             (λ o, default "" (ServiceRequest.code o ?. text))).
  2:{ intros i o. cbn. rewrite collect_child_string by skips. cbn.
      by rewrite text_child_string, append_empty_r. }
  rewrite (flat_map_imap_singleton (collect anchor_text) _ report_text).
  2:{ intros i o. cbn. rewrite collect_child_string by skips. cbn.
      by rewrite text_child_string. }
  cbn. by rewrite !app_nil_r.
Qed.

End Tree.

(* ===================================================================== *)
(** ** Worked examples of the further properties                          *)
(* ===================================================================== *)

Section MoreExamples.
#[local] Existing Instance example_core.
#[local] Existing Instance example_date.

Example queries_of_a_run :
  omap graphql_query
    (calls (steps (mount (Some "123"))
              [RouteChange (Some "123"); RouteChange (Some "456");
               TabSelected (Some "history"); RouteChange (Some "123")])) =
  [query (Some "123"); query (Some "456"); query (Some "123")].
Proof. by vm_compute. Qed.

Example keys_of_jane :
  collect key_of (PatientPage (Some "overview") (Some jane_response)) =
  ["address-0"; "address-1"; "contact-0"; "order-0"; "order-1"; "order-2"].
Proof. by vm_compute. Qed.


(** Witness of X5: Jane's page at 123 is sent to 456. *)
Lemma X5_witness :
  let w := steps (mount (Some "123")) [QueryFulfilled 0 jane_response] in
  let w' := step w (RouteChange (Some "456")) in
  response w = Some jane_response
  ∧ Some "456" ≠ route_id w
  ∧ route_id w' = Some "456"
  ∧ response w' = Some jane_response
  ∧ omap graphql_query (calls w') = [query (Some "123"); query (Some "456")].
Proof.
  intros w w'.
  assert (Some "456" ≠ route_id w) as Hj by discriminate.
  destruct (X5_identifier_change_keeps_previous_result (Some "123")
              [QueryFulfilled 0 jane_response] (Some "456") jane_response
              eq_refl Hj) as (Hi & Hr & _ & _ & _).
  split; [reflexivity|]. split; [exact Hj|].
  split; [exact Hi|]. split; [exact Hr | reflexivity].
Defined.

(** Witness of X6: a click while the query for 123 is pending. *)
Lemma X6_witness :
  response (mount (Some "123")) = None
  ∧ step (mount (Some "123")) AddReportClicked = mount (Some "123").
Proof.
  split; [reflexivity|].
  exact (X6_user_events_ignored_while_loading (Some "123") [] AddReportClicked
           eq_refl (or_introl eq_refl)).
Defined.

(** Witness of X7: the history tab is selected on Jane's page. *)
Lemma X7_witness :
  let w := steps (mount (Some "123")) [QueryFulfilled 0 jane_response] in
  response w = Some jane_response
  ∧ step w (TabSelected (Some "history")) = with_tab (Some "history") w
  ∧ calls (step w (TabSelected (Some "history"))) = calls w.
Proof.
  intros w.
  destruct (X7_tab_selection_changes_only_the_tab (Some "123")
              [QueryFulfilled 0 jane_response] jane_response (Some "history")
              eq_refl) as [Hs _].
  split; [reflexivity|]. split; [exact Hs | reflexivity].
Defined.

(** Witness of X9: the identifiers 123 and 456. *)
Lemma X9_witness :
  "123" ≠ "456" ∧ query (Some "123") ≠ query (Some "456").
Proof.
  assert ("123" ≠ "456") as Hne by discriminate.
  destruct (X9_query_determines_identifier "123" "456" Hne) as (Hq & _ & _).
  split; [exact Hne | exact Hq].
Defined.

End MoreExamples.
